(** * DATurbulenceModel: the augmented turbulence model of DAFoam's adjoint

    A shallow embedding of [src/adjoint/DAModel/DATurbulenceModel/
    DATurbulenceModel.H].  The header declares the abstract class
    [Foam::DATurbulenceModel]; the member functions it defines inline
    ([nut], [phase], [prt], [getTurbModelType]) are embedded in module
    [Foam] below.  The linear-system operations it only declares
    ([getFvMatrixFields], [solveAdjointFP]) have their bodies in the
    model classes; module [Ldu] models them from the specification.

    Scalars: [Foam::scalar] is a double; both modules use Rocq's binary64
    floats, so that comparisons also see NaN and the signed zeros and
    sums are the rounded ones. *)

From Stdlib Require Import ZArith Floats List String Lia Bool.
From stdpp Require Import base list.


Module Foam.

(** ** OpenFOAM's fatal errors

    [FatalErrorIn] and [exit] come from OpenFOAM (error.H, errorManip.H),
    which the header includes through [DAUtility.H].  The macro
    [FatalErrorIn(fn)] selects the global [FatalError] object and records
    the function name in it.  Streaming the manipulator [exit(FatalError)]
    into it invokes [FatalError.exit(1)], and every branch of
    [error::exit] ends the call: [abort()] under FOAM_ABORT, a thrown
    copy of the error when exceptions are switched on, [Pstream::exit]
    in a parallel run, [::exit] otherwise.  Control never comes back to
    the statement that follows, so a member function either returns a
    value or ends in a fatal exit. *)

Record error : Type := mkError
  { functionName : string;
    message : string }.

Inductive outcome (A : Type) : Type :=
| Returned (a : A)
| FatalExit (e : error) (errNo : Z).

Arguments Returned {A} a.
Arguments FatalExit {A} e errNo.

Definition ret {A : Type} (a : A) : outcome A := Returned a.

Definition bind {A B : Type} (c : outcome A) (k : A -> outcome B) : outcome B :=
  match c with
  | Returned a => k a
  | FatalExit e n => FatalExit e n
  end.

(** [c; k] of C++: run [c], discard its value, go on with [k]. *)
Definition andThen {A B : Type} (c : outcome A) (k : outcome B) : outcome B :=
  bind c (fun _ => k).

(** [FatalErrorIn(functionName)] with nothing streamed into the message. *)
Definition FatalErrorIn (fn : string) : error :=
  {| functionName := fn; message := EmptyString |}.

(** [err << exit(FatalError)]: the call does not return; the
    manipulator's [errNo] defaults to 1. *)
Definition exit (e : error) : outcome unit := FatalExit e 1.

Definition isReturned {A : Type} (c : outcome A) : bool :=
  match c with
  | Returned _ => true
  | FatalExit _ _ => false
  end.

(** ** The data members read by the inline member functions, and the
    Prandtl number declared next to [Prt_] *)

Definition word : Type := string.

(** A [volScalarField], by its values per control volume. *)
Definition volScalarField : Type := list float.

Record DATurbulenceModel : Type := mkDATurbulenceModel
  { (** turbulence viscosity *)
    nut_ : volScalarField;
    (** phase field *)
    phase_ : volScalarField;
    (** whether the turbulence model is incompressible or compressible *)
    turbModelType_ : word;
    (** Prandtl number *)
    Pr_ : float;
    (** turbulent Prandtl number *)
    Prt_ : float }.

(** The default member initialisers: [word turbModelType_ = "None"] and
    [scalar Prt_ = -9999.0]. *)
Definition turbModelType_default : word := "None"%string.
Definition Prt_default : float := (-9999.0)%float.

(** [tmp<volScalarField> nut() { return nut_; }] *)
Definition nut (m : DATurbulenceModel) : volScalarField := nut_ m.

(** [tmp<volScalarField> phase() { return phase_; }] *)
Definition phase (m : DATurbulenceModel) : volScalarField := phase_ m.

(** [word getTurbModelType() const { return turbModelType_; }] *)
Definition getTurbModelType (m : DATurbulenceModel) : word := turbModelType_ m.

(** [scalar prt()]:
    if (Prt_ > 0) return Prt_;
    else { FatalErrorIn("getPrt") << exit(FatalError); return -9999.0; }
    The last statement is kept as the continuation of the fatal exit. *)
Definition prt (m : DATurbulenceModel) : outcome float :=
  if (0 <? Prt_ m)%float then ret (Prt_ m)
  else andThen (exit (FatalErrorIn "getPrt")) (ret (-9999.0)%float).

(** A model whose turbulent Prandtl number was never assigned after the
    default member initialiser ran. *)
Definition unsetPrt (m : DATurbulenceModel) : Prop := Prt_ m = Prt_default.

(** The model [m] after [Prt_ = p]. *)
Definition withPrt (m : DATurbulenceModel) (p : float) : DATurbulenceModel :=
  {| nut_ := nut_ m;
     phase_ := phase_ m;
     turbModelType_ := turbModelType_ m;
     Pr_ := Pr_ m;
     Prt_ := p |}.

(** A model on two control volumes that still has both default member
    initialisers, and the same model with a resolved value. *)
Definition freshModel : DATurbulenceModel :=
  {| nut_ := [0.25; 0.125]%float;
     phase_ := [1; 1]%float;
     turbModelType_ := turbModelType_default;
     Pr_ := 1%float;
     Prt_ := Prt_default |}.

Definition resolvedModel : DATurbulenceModel := withPrt freshModel 0.5%float.

End Foam.

Module Ldu.

Open Scope float_scope.

(** ** The linear-system view and its transposed solve

    The header only declares [getFvMatrixFields] and [solveAdjointFP]
    (virtual, bodies in the model classes), so this module is written
    from the specification's description of them.  Scalars are the
    binary64 values of [Foam::scalar]; every operation below is the
    floating-point one. *)

Definition word : Type := string.
Abbreviation scalarField := (list float).

(** Modelled from the spec: an internal mesh connection, with the control
    volumes on its two sides (the mesh library is not part of the
    header; the spec calls the sides owner and neighbour). *)
Record connection : Type := mkConnection
  { owner : nat;
    neighbour : nat }.

(** Modelled from the spec: the mesh as far as the linear system needs
    it, the number of control volumes and the internal connections in
    the mesh's canonical ordering. *)
Record fvMesh : Type := mkMesh
  { nCells : nat;
    connections : list connection }.

(** Modelled from the spec: LinearSystemView, the equation name, one
    diagonal coefficient per control volume and two off-diagonal
    coefficients per connection ([upper]: owner to neighbour, [lower]:
    neighbour to owner). *)
Record LinearSystemView : Type := mkView
  { equationName : word;
    diag : scalarField;
    upper : scalarField;
    lower : scalarField }.

(** Modelled from the spec: the invariant of the mesh connectivity, every
    connection joins two different control volumes of the mesh. *)
Definition checkConnection (n : nat) (c : connection) : bool :=
  (owner c <? n)%nat && (neighbour c <? n)%nat
  && negb (owner c =? neighbour c)%nat.

Definition checkMesh (msh : fvMesh) : bool :=
  forallb (checkConnection (nCells msh)) (connections msh).

(** Modelled from the spec: the invariant of LinearSystemView, the length
    of the diagonal array is the number of control volumes and the
    lengths of the off-diagonal arrays are the number of connections. *)
Definition checkView (msh : fvMesh) (A : LinearSystemView) : bool :=
  (length (diag A) =? nCells msh)%nat
  && (length (upper A) =? length (connections msh))%nat
  && (length (lower A) =? length (connections msh))%nat.

(** The value of a field at a control volume. *)
Definition at_ (psi : scalarField) (i : nat) : float := nth i psi 0.

(** Modelled from the spec: the off-diagonal part of the matrix-free
    product, one pass over the connections: the neighbour's row takes
    [lower] times the owner's value, the owner's row takes [upper] times
    the neighbour's value. *)
Fixpoint addOffDiagonal (cs : list connection) (up lo psi Apsi : scalarField)
  : scalarField :=
  match cs, up, lo with
  | c :: cs', u :: up', l :: lo' =>
      addOffDiagonal cs' up' lo' psi
        (alter (fun a => a + u * at_ psi (neighbour c)) (owner c)
           (alter (fun a => a + l * at_ psi (owner c)) (neighbour c) Apsi))
  | _, _, _ => Apsi
  end.

(** Modelled from the spec: [A . psi] against the three-array
    representation (the application the spec names after
    [calcLduResidualTurb]). *)
Definition Amul (msh : fvMesh) (A : LinearSystemView) (psi : scalarField)
  : scalarField :=
  addOffDiagonal (connections msh) (upper A) (lower A) psi
    (zip_with mul (diag A) psi).

(** Modelled from the spec: the transposed system, the roles of the two
    off-diagonal arrays swapped relative to the connection ordering, the
    diagonal unchanged. *)
Definition transposeView (A : LinearSystemView) : LinearSystemView :=
  {| equationName := equationName A;
     diag := diag A;
     upper := lower A;
     lower := upper A |}.

(** The matrix a view stands for, row by row: the off-diagonal terms of
    row [i] as (column, coefficient) pairs, in the order in which the
    product adds them. *)
Fixpoint offTerms (cs : list connection) (up lo : scalarField) (i : nat)
  : list (nat * float) :=
  match cs, up, lo with
  | c :: cs', u :: up', l :: lo' =>
      (if (neighbour c =? i)%nat then [(owner c, l)] else [])
      ++ (if (owner c =? i)%nat then [(neighbour c, u)] else [])
      ++ offTerms cs' up' lo' i
  | _, _, _ => []
  end.

(** The sum the product forms for one row: the terms added, one after the
    other, to the diagonal term. *)
Definition accumulate (psi : scalarField) (terms : list (nat * float))
    (start : float) : float :=
  fold_left (fun acc t => acc + snd t * at_ psi (fst t)) terms start.

(** The coefficients a view puts in row [i], column [j]: the diagonal
    coefficient when [i = j], and the off-diagonal coefficients of the
    connections between [i] and [j]. *)
Definition coefficients (msh : fvMesh) (A : LinearSystemView) (i j : nat)
  : list float :=
  (if (i =? j)%nat then [at_ (diag A) i] else [])
  ++ map snd
       (List.filter (fun t => (fst t =? j)%nat)
          (offTerms (connections msh) (upper A) (lower A) i)).

(** Modelled from the spec: the residual [b - A . x] of a candidate. *)
Definition residual (msh : fvMesh) (A : LinearSystemView) (b x : scalarField)
  : scalarField :=
  zip_with sub b (Amul msh A x).

(** Modelled from the spec: the caller's tolerance and iteration budget. *)
Record solverControls : Type := mkControls
  { tolerance : float;
    maxIter : nat }.

(** Modelled from the spec: the two outcomes of an iterative solve, with
    the number of sweeps made. *)
Inductive solveResult : Type :=
| Converged (x : scalarField) (nIterations : nat)
| NotConverged (nIterations : nat).

(** Modelled from the spec: one sweep of the iterative, matrix-free
    algorithm (the spec leaves the algorithm open; this is Jacobi's
    [x_i + r_i / d_i]). *)
Definition jacobiSweep (msh : fvMesh) (A : LinearSystemView) (b x : scalarField)
  : scalarField :=
  zip_with (fun xi rd => xi + fst rd / snd rd) x
    (zip (residual msh A b x) (diag A)).

(** Modelled from the spec: the convergence test against the caller's
    tolerance, on every entry of the residual (a NaN entry fails it). *)
Definition withinTolerance (msh : fvMesh) (A : LinearSystemView)
    (ctrl : solverControls) (b x : scalarField) : bool :=
  forallb (fun r => abs r <=? tolerance ctrl) (residual msh A b x).

(** Modelled from the spec: sweep until the residual is within the
    tolerance or the budget is spent. *)
Fixpoint iterate (msh : fvMesh) (A : LinearSystemView) (ctrl : solverControls)
    (b : scalarField) (budget n : nat) (x : scalarField) : solveResult :=
  if withinTolerance msh A ctrl b x then Converged x n
  else
    match budget with
    | O => NotConverged n
    | S budget' => iterate msh A ctrl b budget' (S n) (jacobiSweep msh A b x)
    end.

(** Modelled from the spec: whether some diagonal coefficient is zero,
    as in the spec's singular system. *)
Definition hasZeroPivot (A : LinearSystemView) : bool :=
  existsb is_zero (diag A).

(** The iterates of the solve, from the zero vector. *)
Definition iterateAt (msh : fvMesh) (A : LinearSystemView) (b : scalarField)
    (k : nat) : scalarField :=
  Nat.iter k (jacobiSweep msh A b) (repeat 0 (nCells msh)).

(** Modelled from the spec: the iterative linear solve, from the zero
    vector.  A zero diagonal coefficient leaves the sweep undefined; the
    solve then reports non-convergence without sweeping. *)
Definition solve (msh : fvMesh) (A : LinearSystemView) (ctrl : solverControls)
    (b : scalarField) : solveResult :=
  if hasZeroPivot A then NotConverged 0
  else iterate msh A ctrl b (maxIter ctrl) 0 (repeat 0 (nCells msh)).

(** Modelled from the spec: the error kinds of the linear-system
    queries, with the operation and the offending identifier. *)
Inductive failure : Type :=
| InvalidArgument (operation : string) (identifier : word).

(** Modelled from the spec: an operation yields its value or surfaces a
    failure to the immediate caller. *)
Inductive result (A : Type) : Type :=
| Ok (a : A)
| Failed (f : failure).

Arguments Ok {A} a.
Arguments Failed {A} f.

(** Modelled from the spec: a closure model that implements the adjoint
    operations, by its mesh, the linear systems of the equations it owns
    and the solver settings resolved from the options. *)
Record ClosureModel : Type := mkModel
  { mesh : fvMesh;
    equations : list LinearSystemView;
    controls : solverControls }.

(** Modelled from the spec: the names of the equations the model owns. *)
Definition ownedVariables (m : ClosureModel) : list word :=
  map equationName (equations m).

(** Modelled from the spec: the owned equation of a given name. *)
Definition findEquation (m : ClosureModel) (varName : word)
  : option LinearSystemView :=
  find (fun A => String.eqb varName (equationName A)) (equations m).

(** Modelled from the spec: the mesh and view invariants over a model. *)
Definition checkModel (m : ClosureModel) : bool :=
  checkMesh (mesh m) && forallb (checkView (mesh m)) (equations m).

(** Modelled from the spec: [getFvMatrixFields(variableName, diag, upper,
    lower)], the three coefficient arrays of the named owned equation,
    or invalid-argument when the name is not an owned variable. *)
Definition getFvMatrixFields (m : ClosureModel) (varName : word)
  : result (scalarField * scalarField * scalarField) :=
  match findEquation m varName with
  | Some A => Ok (diag A, upper A, lower A)
  | None => Failed (InvalidArgument "getFvMatrixFields" varName)
  end.

(** Modelled from the spec: [solveAdjointFP(variableName, rhs, result)],
    the solve of the system made of the arrays [getFvMatrixFields]
    returns with the two off-diagonal arrays swapped.  The right-hand
    side is aligned with the control volumes; one of another length is
    an invalid argument. *)
Definition solveAdjointFP (m : ClosureModel) (varName : word) (rhs : scalarField)
  : result solveResult :=
  match getFvMatrixFields m varName with
  | Ok (d, u, l) =>
      if (length rhs =? nCells (mesh m))%nat
      then Ok (solve (mesh m) (mkView varName d l u) (controls m) rhs)
      else Failed (InvalidArgument "solveAdjointFP" "rhs"%string)
  | Failed _ => Failed (InvalidArgument "solveAdjointFP" varName)
  end.

(** The spec's end-to-end scenario: two control volumes, one connection,
    diag = [2, 2], upper = [-1], lower = [-1]. *)
Definition twoCellMesh : fvMesh :=
  {| nCells := 2; connections := [ {| owner := 0; neighbour := 1 |} ] |}.

Definition twoCellEqn : LinearSystemView :=
  {| equationName := "nuTilda"%string; diag := [2; 2]; upper := [-1]; lower := [-1] |}.

Definition twoCellModel : ClosureModel :=
  {| mesh := twoCellMesh;
     equations := [ twoCellEqn ];
     controls := {| tolerance := 0.0009765625; maxIter := 50 |} |}.

(** An asymmetric system on three control volumes in a row. *)
Definition threeCellMesh : fvMesh :=
  {| nCells := 3;
     connections := [ {| owner := 0; neighbour := 1 |};
                      {| owner := 1; neighbour := 2 |} ] |}.

Definition threeCellEqn : LinearSystemView :=
  {| equationName := "nuTilda"%string;
     diag := [4; 5; 6]; upper := [1; 2]; lower := [-1; 1.5] |}.

Definition threeCellModel : ClosureModel :=
  {| mesh := threeCellMesh;
     equations := [ threeCellEqn ];
     controls := {| tolerance := 0.0078125; maxIter := 20 |} |}.

(** A system the sweep does not contract: diag = [1, 1], upper = [2],
    lower = [3]. *)
Definition looseEqn : LinearSystemView :=
  {| equationName := "nuTilda"%string; diag := [1; 1]; upper := [2]; lower := [3] |}.

Definition looseModel : ClosureModel :=
  {| mesh := twoCellMesh;
     equations := [ looseEqn ];
     controls := {| tolerance := 0.0078125; maxIter := 30 |} |}.

(** The spec's non-convergence scenario: diag = [0, 0], upper = lower = [0]. *)
Definition singularEqn : LinearSystemView :=
  {| equationName := "nuTilda"%string; diag := [0; 0]; upper := [0]; lower := [0] |}.

Definition singularModel : ClosureModel :=
  {| mesh := twoCellMesh;
     equations := [ singularEqn ];
     controls := {| tolerance := 0.0009765625; maxIter := 50 |} |}.

End Ldu.
Import Foam Ldu.

(** * The matrix behind the matrix-free product *)

Section LduMatrix.

Open Scope float_scope.

Lemma at_alter (f : float -> float) (j i : nat) (l : scalarField) :
  (i < length l)%nat ->
  at_ (alter f j l) i = if (j =? i)%nat then f (at_ l i) else at_ l i.
Proof.
  revert j i. induction l as [|a l IH]; intros j i Hi; simpl in Hi; [lia|].
  destruct j as [|j], i as [|i]; try reflexivity.
  change (alter f (S j) (a :: l)) with (a :: alter f j l).
  unfold at_ in *. simpl. apply IH. lia.
Qed.

Lemma accumulate_app (psi : scalarField) (s t : list (nat * float)) (a : float) :
  accumulate psi (s ++ t) a = accumulate psi t (accumulate psi s a).
Proof. unfold accumulate. apply fold_left_app. Qed.

(** Row [i] of the off-diagonal pass: the terms of [offTerms], added one
    after the other to what the row held. *)
Lemma addOffDiagonal_row (cs : list connection) :
  forall (up lo psi Apsi : scalarField) (i : nat),
    (i < length Apsi)%nat ->
    at_ (addOffDiagonal cs up lo psi Apsi) i
    = accumulate psi (offTerms cs up lo i) (at_ Apsi i).
Proof.
  induction cs as [|c cs IH]; intros up lo psi Apsi i Hi; [reflexivity|].
  destruct up as [|u up]; [reflexivity|].
  destruct lo as [|l lo]; [reflexivity|].
  simpl addOffDiagonal. simpl offTerms.
  rewrite IH by (rewrite !length_alter; exact Hi).
  rewrite !accumulate_app. f_equal.
  rewrite at_alter by (rewrite length_alter; exact Hi).
  rewrite at_alter by exact Hi.
  destruct (neighbour c =? i)%nat, (owner c =? i)%nat; reflexivity.
Qed.

Lemma at_zip_with_mul (d psi : scalarField) (i : nat) :
  (i < length d)%nat -> (i < length psi)%nat ->
  at_ (zip_with mul d psi) i = at_ d i * at_ psi i.
Proof.
  revert psi i. induction d as [|a d IH]; intros psi i Hd Hp; simpl in Hd; [lia|].
  destruct psi as [|p psi]; simpl in Hp; [lia|].
  destruct i as [|i]; [reflexivity|].
  unfold at_ in *. simpl. apply IH; lia.
Qed.

(** Row [i] of the product: the diagonal term, then the off-diagonal
    terms of the row. *)
Lemma Amul_row (msh : fvMesh) (A : LinearSystemView) (psi : scalarField) (i : nat) :
  (i < length (diag A))%nat -> (i < length psi)%nat ->
  at_ (Amul msh A psi) i
  = accumulate psi (offTerms (connections msh) (upper A) (lower A) i)
      (at_ (diag A) i * at_ psi i).
Proof.
  intros Hd Hp. unfold Amul.
  rewrite addOffDiagonal_row by (rewrite length_zip_with; lia).
  rewrite at_zip_with_mul by assumption. reflexivity.
Qed.

Lemma checkMesh_Forall (msh : fvMesh) :
  checkMesh msh = true ->
  Forall (fun c => owner c <> neighbour c) (connections msh).
Proof.
  unfold checkMesh, checkConnection.
  rewrite forallb_forall, List.Forall_forall.
  intros H c Hc. specialize (H c Hc).
  apply andb_true_iff in H as [_ H].
  apply negb_true_iff, Nat.eqb_neq in H. exact H.
Qed.

Lemma offTerms_transpose (cs : list connection) :
  forall (up lo : scalarField) (i j : nat),
    Forall (fun c => owner c <> neighbour c) cs ->
    map snd (List.filter (fun t => (fst t =? j)%nat) (offTerms cs lo up i))
    = map snd (List.filter (fun t => (fst t =? i)%nat) (offTerms cs up lo j)).
Proof.
  induction cs as [|c cs IH]; intros up lo i j Hcs; [reflexivity|].
  destruct up as [|u up]; [destruct lo; reflexivity|].
  destruct lo as [|l lo]; [reflexivity|].
  inversion Hcs as [|? ? Hc Hcs']; subst.
  simpl offTerms.
  rewrite !app_assoc, !(List.filter_app _ (_ ++ _)), !(map_app _ (List.filter _ (_ ++ _))).
  rewrite (IH up lo i j Hcs'). f_equal.
  destruct (Nat.eqb_spec (neighbour c) i) as [Hni|Hni],
           (Nat.eqb_spec (owner c) i) as [Hoi|Hoi],
           (Nat.eqb_spec (neighbour c) j) as [Hnj|Hnj],
           (Nat.eqb_spec (owner c) j) as [Hoj|Hoj];
    simpl;
    repeat match goal with
      | |- context [(?a =? ?b)%nat] => destruct (Nat.eqb_spec a b)
      end; simpl; try reflexivity; congruence.
Qed.

(** Coefficient by coefficient: row [i], column [j] of the swapped view
    holds what row [j], column [i] of the view holds. *)
Lemma coefficients_transposeView (msh : fvMesh) (A : LinearSystemView) (i j : nat) :
  checkMesh msh = true ->
  coefficients msh (transposeView A) i j = coefficients msh A j i.
Proof.
  intros Hm. unfold coefficients. simpl.
  rewrite (offTerms_transpose _ (upper A) (lower A) i j (checkMesh_Forall msh Hm)).
  f_equal. rewrite (Nat.eqb_sym j i).
  destruct (Nat.eqb_spec i j); [subst|]; reflexivity.
Qed.

End LduMatrix.

(** * The iterative solve *)

Section IterativeSolve.

Open Scope float_scope.

Variable msh : fvMesh.
Variable A : LinearSystemView.
Variable ctrl : solverControls.
Variable b : scalarField.

Lemma length_addOffDiagonal (cs : list connection) :
  forall up lo psi Apsi : scalarField,
    length (addOffDiagonal cs up lo psi Apsi) = length Apsi.
Proof.
  induction cs as [|c cs IH]; intros [|u up] [|l lo] psi Apsi; simpl; try reflexivity.
  rewrite IH, !length_alter. reflexivity.
Qed.

Lemma length_Amul (x : scalarField) :
  length (Amul msh A x) = Nat.min (length (diag A)) (length x).
Proof.
  unfold Amul. rewrite length_addOffDiagonal. apply length_zip_with.
Qed.

Lemma length_jacobiSweep (x : scalarField) :
  length (diag A) = nCells msh ->
  length b = nCells msh ->
  length x = nCells msh ->
  length (jacobiSweep msh A b x) = nCells msh.
Proof.
  intros Hd Hb Hx. unfold jacobiSweep, residual.
  rewrite length_zip_with, length_zip, length_zip_with, length_Amul. lia.
Qed.

Lemma length_iterateAt (k : nat) :
  length (diag A) = nCells msh ->
  length b = nCells msh ->
  length (iterateAt msh A b k) = nCells msh.
Proof.
  intros Hd Hb. unfold iterateAt. induction k as [|k IH]; simpl.
  - apply repeat_length.
  - apply length_jacobiSweep; assumption.
Qed.

Lemma withinTolerance_Forall (x : scalarField) :
  withinTolerance msh A ctrl b x = true
  <-> Forall (fun r => (abs r <=? tolerance ctrl) = true) (residual msh A b x).
Proof.
  unfold withinTolerance. rewrite forallb_forall, List.Forall_forall. reflexivity.
Qed.

(** A converged outcome carries the first iterate that passes the test. *)
Lemma iterate_Converged (budget : nat) :
  forall (n : nat) (x z : scalarField) (k : nat),
    iterate msh A ctrl b budget n x = Converged z k ->
    exists j : nat,
      (j <= budget)%nat /\ k = (n + j)%nat
      /\ z = Nat.iter j (jacobiSweep msh A b) x
      /\ withinTolerance msh A ctrl b z = true
      /\ (forall j' : nat, (j' < j)%nat ->
            withinTolerance msh A ctrl b (Nat.iter j' (jacobiSweep msh A b) x)
            = false).
Proof.
  induction budget as [|budget IH]; intros n x z k; simpl;
    destruct (withinTolerance msh A ctrl b x) eqn:Hx; intros H;
    try discriminate.
  - injection H as <- <-. exists 0%nat. simpl.
    split; [lia|]. split; [lia|]. split; [reflexivity|]. split; [exact Hx|].
    intros j' Hj'. lia.
  - injection H as <- <-. exists 0%nat. simpl.
    split; [lia|]. split; [lia|]. split; [reflexivity|]. split; [exact Hx|].
    intros j' Hj'. lia.
  - apply IH in H as (j & Hj & -> & -> & Hz & Hfirst).
    exists (S j). rewrite Nat.iter_succ_r.
    split; [lia|]. split; [lia|]. split; [reflexivity|]. split; [exact Hz|].
    intros [|j'] Hj'; [exact Hx|].
    rewrite Nat.iter_succ_r. apply Hfirst. lia.
Qed.

(** The first iterate within the budget that passes the test is the
    outcome. *)
Lemma iterate_first_pass (budget : nat) :
  forall (n : nat) (x : scalarField) (j : nat),
    (j <= budget)%nat ->
    withinTolerance msh A ctrl b (Nat.iter j (jacobiSweep msh A b) x) = true ->
    (forall j' : nat, (j' < j)%nat ->
       withinTolerance msh A ctrl b (Nat.iter j' (jacobiSweep msh A b) x) = false) ->
    iterate msh A ctrl b budget n x
    = Converged (Nat.iter j (jacobiSweep msh A b) x) (n + j).
Proof.
  induction budget as [|budget IH]; intros n x j Hj Hpass Hfirst.
  - assert (j = 0)%nat as -> by lia. simpl in *. rewrite Hpass.
    f_equal. lia.
  - destruct j as [|j].
    + simpl in *. rewrite Hpass. f_equal. lia.
    + pose proof (Hfirst 0%nat (Nat.lt_0_succ _)) as H0. simpl in H0.
      simpl iterate. rewrite H0.
      rewrite Nat.iter_succ_r in *. rewrite (IH (S n) _ j).
      * f_equal. lia.
      * lia.
      * exact Hpass.
      * intros j' Hj'. rewrite <- Nat.iter_succ_r. apply Hfirst. lia.
Qed.

(** When no iterate within the budget passes the test, the budget is
    spent and the outcome is non-convergence. *)
Lemma iterate_NotConverged (budget : nat) :
  forall (n : nat) (x : scalarField),
    (forall j : nat, (j <= budget)%nat ->
       withinTolerance msh A ctrl b (Nat.iter j (jacobiSweep msh A b) x) = false) ->
    iterate msh A ctrl b budget n x = NotConverged (n + budget).
Proof.
  induction budget as [|budget IH]; intros n x H;
    pose proof (H 0%nat (Nat.le_0_l _)) as H0; simpl in H0 |- *; rewrite H0.
  - f_equal. lia.
  - rewrite IH.
    + f_equal. lia.
    + intros j Hj. rewrite <- Nat.iter_succ_r. apply H. lia.
Qed.

End IterativeSolve.

(** * The turbulent Prandtl number query *)

Section Prt.

Open Scope float_scope.

(** The statement after the fatal exit is never run. *)
Lemma exit_is_final (A : Type) (e : error) (k : outcome A) :
  andThen (exit e) k = FatalExit e 1.
Proof. reflexivity. Qed.

Lemma prt_unfold (m : DATurbulenceModel) :
  prt m = if 0 <? Prt_ m then Returned (Prt_ m)
          else FatalExit (FatalErrorIn "getPrt") 1.
Proof.
  unfold prt. destruct (0 <? Prt_ m); [reflexivity|apply exit_is_final].
Qed.

Lemma leb0_not_positive (p : float) : (p <=? 0) = true -> (0 <? p) = false.
Proof.
  rewrite leb_spec, ltb_spec.
  change (Prim2SF 0) with (S754_zero false).
  destruct (Prim2SF p) as [s|s| |s mnt e]; try destruct s;
    unfold SFleb, SFltb, SFcompare; congruence.
Qed.

Lemma prt_Returned (m : DATurbulenceModel) (v : float) :
  prt m = Returned v -> v = Prt_ m /\ (0 <? v) = true.
Proof.
  rewrite prt_unfold. destruct (0 <? Prt_ m) eqn:Hpos; [|discriminate].
  intros H. injection H as <-. split; [reflexivity|exact Hpos].
Qed.

(** C3. When the turbulent Prandtl number was never resolved ([Prt_]
    still holds its default member initialiser), [prt()] ends in the
    fatal error raised by [FatalErrorIn("getPrt") << exit(FatalError)],
    which carries the function name "getPrt"; it returns no value at
    all to the caller, and no model's [prt()] ever returns the sentinel
    -9999.0. *)
Theorem prt_unset_is_fatal (m : DATurbulenceModel) :
  unsetPrt m ->
  prt m = FatalExit (FatalErrorIn "getPrt") 1
  /\ functionName (FatalErrorIn "getPrt") = "getPrt"%string
  /\ (forall v : float, prt m <> Returned v)
  /\ (forall m' : DATurbulenceModel, prt m' <> Returned Prt_default).
Proof.
  unfold unsetPrt. intros Hunset.
  assert (Hm : prt m = FatalExit (FatalErrorIn "getPrt") 1).
  { rewrite prt_unfold, Hunset. reflexivity. }
  repeat split.
  - exact Hm.
  - intros v Hv. rewrite Hm in Hv. discriminate.
  - intros m' Hm'. apply prt_Returned in Hm' as [_ Hpos].
    vm_compute in Hpos. discriminate.
Qed.

Lemma prt_unset_is_fatal_witness :
  prt freshModel = FatalExit (FatalErrorIn "getPrt") 1
  /\ functionName (FatalErrorIn "getPrt") = "getPrt"%string
  /\ (forall v : float, prt freshModel <> Returned v)
  /\ (forall m' : DATurbulenceModel, prt m' <> Returned Prt_default).
Proof. apply (prt_unset_is_fatal freshModel). reflexivity. Defined.

(** C9. [prt()] tests positivity: it returns the stored [Prt_] exactly
    when [Prt_ > 0] holds and ends in the fatal error exactly when it
    does not; every stored value that is at most zero (zero, a negative
    number, minus infinity) has the outcome of the never-set default
    -9999.0. *)
Theorem prt_tests_positivity (m : DATurbulenceModel) :
  isReturned (prt m) = (0 <? Prt_ m)
  /\ (prt m = Returned (Prt_ m) <-> (0 <? Prt_ m) = true)
  /\ (prt m = FatalExit (FatalErrorIn "getPrt") 1 <-> (0 <? Prt_ m) = false)
  /\ (forall p : float, (p <=? 0) = true ->
        prt (withPrt m p) = prt (withPrt m Prt_default))
  /\ prt (withPrt m 0) = prt (withPrt m Prt_default)
  /\ prt (withPrt m (-0.5)) = prt (withPrt m Prt_default)
  /\ prt (withPrt m 0.5) = Returned 0.5.
Proof.
  repeat split.
  - rewrite prt_unfold. destruct (0 <? Prt_ m); reflexivity.
  - rewrite prt_unfold. destruct (0 <? Prt_ m); [reflexivity|discriminate].
  - intros H. rewrite prt_unfold, H. reflexivity.
  - rewrite prt_unfold. destruct (0 <? Prt_ m); [discriminate|reflexivity].
  - intros H. rewrite prt_unfold, H. reflexivity.
  - intros p Hp. rewrite !prt_unfold. simpl Prt_.
    rewrite (leb0_not_positive p Hp). reflexivity.
Qed.

(** Not-a-number and the negative zero are not positive either. *)
Example prt_nan_and_negative_zero :
  prt (withPrt freshModel nan) = FatalExit (FatalErrorIn "getPrt") 1
  /\ prt (withPrt freshModel (-0)) = FatalExit (FatalErrorIn "getPrt") 1
  /\ prt (withPrt freshModel neg_infinity) = FatalExit (FatalErrorIn "getPrt") 1.
Proof. repeat split. Qed.

Example prt_resolved : prt resolvedModel = Returned 0.5.
Proof. reflexivity. Qed.

Example accessors_of_freshModel :
  getTurbModelType freshModel = "None"%string
  /\ nut freshModel = [0.25; 0.125]
  /\ phase freshModel = [1; 1].
Proof. repeat split. Qed.

End Prt.

(** * The transposed solve *)

Section AdjointSolve.

Open Scope float_scope.

Lemma findEquation_Some (m : ClosureModel) (varName : word) (A : LinearSystemView) :
  findEquation m varName = Some A ->
  In A (equations m) /\ equationName A = varName.
Proof.
  unfold findEquation. intros H. apply find_some in H as [Hin Heq].
  apply String.eqb_eq in Heq. auto.
Qed.

(** Every owned variable name has its equation. *)
Lemma owned_findEquation (m : ClosureModel) (varName : word) :
  In varName (ownedVariables m) <->
  exists A : LinearSystemView, findEquation m varName = Some A.
Proof.
  unfold ownedVariables. split.
  - intros Hin. apply in_map_iff in Hin as (B & HB & HinB).
    unfold findEquation.
    destruct (find (fun A => String.eqb varName (equationName A)) (equations m))
      as [A|] eqn:Hfind; [eauto|].
    apply (find_none _ _ Hfind) in HinB.
    rewrite HB, String.eqb_refl in HinB. discriminate.
  - intros [A HA]. apply findEquation_Some in HA as [Hin <-].
    apply in_map. exact Hin.
Qed.

Lemma checkModel_view (m : ClosureModel) (A : LinearSystemView) :
  checkModel m = true -> In A (equations m) ->
  checkMesh (mesh m) = true /\ length (diag A) = nCells (mesh m).
Proof.
  unfold checkModel. intros H Hin. apply andb_true_iff in H as [Hm Hv].
  rewrite forallb_forall in Hv. specialize (Hv A Hin).
  unfold checkView in Hv. rewrite !andb_true_iff, !Nat.eqb_eq in Hv.
  split; [exact Hm|tauto].
Qed.

(** The outcomes of a solve: the first iterate within the budget that
    passes the test, or non-convergence. *)
Lemma solve_Converged (msh : fvMesh) (A : LinearSystemView) (ctrl : solverControls)
    (b z : scalarField) (n : nat) :
  solve msh A ctrl b = Converged z n ->
  hasZeroPivot A = false
  /\ (n <= maxIter ctrl)%nat
  /\ z = iterateAt msh A b n
  /\ withinTolerance msh A ctrl b z = true
  /\ (forall k : nat, (k < n)%nat ->
        withinTolerance msh A ctrl b (iterateAt msh A b k) = false).
Proof.
  unfold solve, iterateAt. destruct (hasZeroPivot A); [discriminate|]. intros H.
  apply iterate_Converged in H as (j & Hj & -> & -> & Hz & Hfirst). auto.
Qed.

Lemma solve_first_pass (msh : fvMesh) (A : LinearSystemView) (ctrl : solverControls)
    (b : scalarField) (k : nat) :
  hasZeroPivot A = false ->
  (k <= maxIter ctrl)%nat ->
  withinTolerance msh A ctrl b (iterateAt msh A b k) = true ->
  (forall k' : nat, (k' < k)%nat ->
     withinTolerance msh A ctrl b (iterateAt msh A b k') = false) ->
  solve msh A ctrl b = Converged (iterateAt msh A b k) k.
Proof.
  intros Hp Hk Hpass Hfirst. unfold solve. rewrite Hp.
  apply (iterate_first_pass msh A ctrl b (maxIter ctrl) 0 _ k Hk Hpass Hfirst).
Qed.

Lemma solve_NotConverged (msh : fvMesh) (A : LinearSystemView) (ctrl : solverControls)
    (b : scalarField) :
  hasZeroPivot A = true
  \/ (forall k : nat, (k <= maxIter ctrl)%nat ->
        withinTolerance msh A ctrl b (iterateAt msh A b k) = false) ->
  exists n : nat, solve msh A ctrl b = NotConverged n.
Proof.
  unfold solve. intros [Hp|Hall].
  - rewrite Hp. eauto.
  - destruct (hasZeroPivot A); [eauto|].
    exists (0 + maxIter ctrl)%nat. apply iterate_NotConverged. exact Hall.
Qed.

(** C1. For a variable name that names an equation [A] the model owns:
    [getFvMatrixFields] returns the three arrays of [A]; [solveAdjointFP]
    runs the iterative solve on the same arrays with [upper] and [lower]
    swapped and [diag] kept, and that system is the algebraic transpose
    of [A]: its rows are what the matrix-free product sums, and row [i],
    column [j] of it holds what row [j], column [i] of [A] holds.  A
    right-hand side that is not aligned with the control volumes is
    refused.  The solve converges exactly when an iterate within the
    budget meets the tolerance, with the first such iterate as result;
    the result then has one entry per control volume, in the ordering of
    the diagonal array, and every entry of the residual of the
    transposed system at it is within the tolerance.  Otherwise the
    outcome is non-convergence and no result is returned. *)
Theorem solveAdjointFP_solves_transpose
    (m : ClosureModel) (varName : word) (A : LinearSystemView) (rhs : scalarField) :
  checkModel m = true ->
  findEquation m varName = Some A ->
  getFvMatrixFields m varName = Ok (diag A, upper A, lower A)
  /\ (diag (transposeView A) = diag A
      /\ upper (transposeView A) = lower A
      /\ lower (transposeView A) = upper A)
  /\ (forall i j : nat,
        coefficients (mesh m) (transposeView A) i j
        = coefficients (mesh m) A j i)
  /\ (forall (x : scalarField) (i : nat),
        (i < nCells (mesh m))%nat -> length x = nCells (mesh m) ->
        at_ (Amul (mesh m) (transposeView A) x) i
        = accumulate x
            (offTerms (connections (mesh m)) (lower A) (upper A) i)
            (at_ (diag A) i * at_ x i)
        /\ at_ (Amul (mesh m) A x) i
           = accumulate x
               (offTerms (connections (mesh m)) (upper A) (lower A) i)
               (at_ (diag A) i * at_ x i))
  /\ (length rhs <> nCells (mesh m) ->
      solveAdjointFP m varName rhs
      = Failed (InvalidArgument "solveAdjointFP" "rhs"%string))
  /\ (length rhs = nCells (mesh m) ->
      solveAdjointFP m varName rhs
      = Ok (solve (mesh m) (transposeView A) (controls m) rhs))
  /\ (forall (z : scalarField) (n : nat),
        solveAdjointFP m varName rhs = Ok (Converged z n) ->
        length rhs = nCells (mesh m)
        /\ length z = nCells (mesh m)
        /\ length z = length (diag A)
        /\ (n <= maxIter (controls m))%nat
        /\ z = iterateAt (mesh m) (transposeView A) rhs n
        /\ Forall (fun r => (abs r <=? tolerance (controls m)) = true)
             (residual (mesh m) (transposeView A) rhs z)
        /\ (forall k : nat, (k < n)%nat ->
              withinTolerance (mesh m) (transposeView A) (controls m) rhs
                (iterateAt (mesh m) (transposeView A) rhs k) = false))
  /\ (forall k : nat,
        length rhs = nCells (mesh m) ->
        hasZeroPivot A = false ->
        (k <= maxIter (controls m))%nat ->
        withinTolerance (mesh m) (transposeView A) (controls m) rhs
          (iterateAt (mesh m) (transposeView A) rhs k) = true ->
        (forall k' : nat, (k' < k)%nat ->
           withinTolerance (mesh m) (transposeView A) (controls m) rhs
             (iterateAt (mesh m) (transposeView A) rhs k') = false) ->
        solveAdjointFP m varName rhs
        = Ok (Converged (iterateAt (mesh m) (transposeView A) rhs k) k))
  /\ (length rhs = nCells (mesh m) ->
      hasZeroPivot A = true
      \/ (forall k : nat, (k <= maxIter (controls m))%nat ->
            withinTolerance (mesh m) (transposeView A) (controls m) rhs
              (iterateAt (mesh m) (transposeView A) rhs k) = false) ->
      exists n : nat, solveAdjointFP m varName rhs = Ok (NotConverged n)).
Proof.
  intros Hm HA.
  destruct (findEquation_Some m varName A HA) as [Hin Hname].
  destruct (checkModel_view m A Hm Hin) as [Hmesh Hd].
  assert (Hfields : getFvMatrixFields m varName = Ok (diag A, upper A, lower A)).
  { unfold getFvMatrixFields. rewrite HA. reflexivity. }
  assert (Hbad : length rhs <> nCells (mesh m) ->
                 solveAdjointFP m varName rhs
                 = Failed (InvalidArgument "solveAdjointFP" "rhs"%string)).
  { intros Hlen. unfold solveAdjointFP. rewrite Hfields.
    apply Nat.eqb_neq in Hlen. rewrite Hlen. reflexivity. }
  assert (Hgood : length rhs = nCells (mesh m) ->
                  solveAdjointFP m varName rhs
                  = Ok (solve (mesh m) (transposeView A) (controls m) rhs)).
  { intros Hlen. unfold solveAdjointFP. rewrite Hfields.
    apply Nat.eqb_eq in Hlen. rewrite Hlen, <- Hname. reflexivity. }
  split; [exact Hfields|].
  split; [repeat split|].
  split. { intros i j. apply coefficients_transposeView. exact Hmesh. }
  split.
  { intros x i Hi Hx. split.
    - apply (Amul_row (mesh m) (transposeView A)); simpl; lia.
    - apply (Amul_row (mesh m) A); lia. }
  split; [exact Hbad|].
  split; [exact Hgood|].
  split.
  { intros z n Hz.
    destruct (Nat.eq_dec (length rhs) (nCells (mesh m))) as [Hlen|Hlen];
      [|rewrite (Hbad Hlen) in Hz; discriminate].
    rewrite (Hgood Hlen) in Hz. injection Hz as Hz.
    apply solve_Converged in Hz as (_ & Hn & Hzeq & Htol & Hfirst).
    assert (Hz : length z = nCells (mesh m)).
    { rewrite Hzeq. apply length_iterateAt; assumption. }
    split; [exact Hlen|]. split; [exact Hz|].
    split; [rewrite Hd; exact Hz|]. split; [exact Hn|].
    split; [exact Hzeq|].
    split; [apply withinTolerance_Forall; exact Htol|exact Hfirst]. }
  split.
  { intros k Hlen Hp Hk Hpass Hfirst. rewrite (Hgood Hlen). f_equal.
    apply solve_first_pass; assumption. }
  intros Hlen Hnot. rewrite (Hgood Hlen).
  destruct (solve_NotConverged (mesh m) (transposeView A) (controls m) rhs Hnot)
    as [n Hn].
  exists n. rewrite Hn. reflexivity.
Qed.

Lemma solveAdjointFP_solves_transpose_witness :
  checkModel threeCellModel = true
  /\ findEquation threeCellModel "nuTilda"%string = Some threeCellEqn
  /\ getFvMatrixFields threeCellModel "nuTilda"%string
     = Ok ([4; 5; 6], [1; 2], [-1; 1.5])
  /\ coefficients threeCellMesh (transposeView threeCellEqn) 0 1
     = coefficients threeCellMesh threeCellEqn 1 0
  /\ exists z : scalarField,
       solveAdjointFP threeCellModel "nuTilda"%string [1; 2; 3]
       = Ok (Converged z 5)
       /\ length z = 3%nat
       /\ z = iterateAt threeCellMesh (transposeView threeCellEqn) [1; 2; 3] 5
       /\ Forall (fun r => (abs r <=? 0.0078125) = true)
            (residual threeCellMesh (transposeView threeCellEqn) [1; 2; 3] z).
Proof.
  destruct (solveAdjointFP_solves_transpose threeCellModel "nuTilda"%string
              threeCellEqn [1; 2; 3] eq_refl eq_refl)
    as (Hfields & _ & Hcoeff & _ & _ & _ & Hconv & _ & _).
  split; [reflexivity|]. split; [reflexivity|]. split; [exact Hfields|].
  split; [exact (Hcoeff 0%nat 1%nat)|].
  exists (iterateAt threeCellMesh (transposeView threeCellEqn) [1; 2; 3] 5).
  assert (Hsolve : solveAdjointFP threeCellModel "nuTilda"%string [1; 2; 3]
                   = Ok (Converged
                           (iterateAt threeCellMesh (transposeView threeCellEqn)
                              [1; 2; 3] 5) 5))
    by (vm_compute; reflexivity).
  destruct (Hconv _ _ Hsolve) as (_ & Hlen & _ & _ & Hz & Hres & _).
  split; [exact Hsolve|]. split; [exact Hlen|]. split; [reflexivity|exact Hres].
Defined.

(** The spec's end-to-end scenario: the transposed solve of diag = [2, 2],
    upper = lower = [-1] against [1, 1] converges in ten sweeps to a
    vector within 2^-10 of [1, 1]. *)
Example twoCell_transpose_converges :
  solveAdjointFP twoCellModel "nuTilda"%string [1; 1]
  = Ok (Converged [0.9990234375; 0.9990234375] 10).
Proof. vm_compute. reflexivity. Qed.

(** The sweep does not contract on diag = [1, 1], upper = [2], lower = [3]:
    the budget of thirty sweeps is spent and no result is returned,
    although the transposed system has a solution. *)
Example loose_reports_nonconvergence :
  solveAdjointFP looseModel "nuTilda"%string [1; 1] = Ok (NotConverged 30).
Proof. vm_compute. reflexivity. Qed.

(** The spec's non-convergence scenario. *)
Example singular_reports_nonconvergence :
  solveAdjointFP singularModel "nuTilda"%string [1; 1] = Ok (NotConverged 0)
  /\ solveAdjointFP singularModel "nuTilda"%string [0; 0] = Ok (NotConverged 0).
Proof. split; vm_compute; reflexivity. Qed.

(** The coefficients of the asymmetric system and of its transpose
    across the first connection, and an unconnected pair. *)
Example threeCell_coefficients :
  coefficients threeCellMesh threeCellEqn 0 1 = [1]
  /\ coefficients threeCellMesh threeCellEqn 1 0 = [-1]
  /\ coefficients threeCellMesh (transposeView threeCellEqn) 0 1 = [-1]
  /\ coefficients threeCellMesh (transposeView threeCellEqn) 1 0 = [1]
  /\ coefficients threeCellMesh threeCellEqn 1 1 = [5]
  /\ coefficients threeCellMesh threeCellEqn 0 2 = [].
Proof. repeat split. Qed.

(** A right-hand side of the wrong length and an unknown name are
    invalid arguments. *)
Example threeCell_invalid_arguments :
  solveAdjointFP threeCellModel "nuTilda"%string [1]
  = Failed (InvalidArgument "solveAdjointFP" "rhs"%string)
  /\ solveAdjointFP threeCellModel "k"%string [1; 2; 3]
     = Failed (InvalidArgument "solveAdjointFP" "k"%string)
  /\ getFvMatrixFields threeCellModel "k"%string
     = Failed (InvalidArgument "getFvMatrixFields" "k"%string).
Proof. repeat split. Qed.

End AdjointSolve.


(** * What [prt] hands to its caller *)

Section PrtValues.

Open Scope float_scope.

Lemma SFcompare_refl_finite (s : bool) (mnt : positive) (e : Z) :
  SFcompare (S754_finite s mnt e) (S754_finite s mnt e) = Some Eq.
Proof.
  unfold SFcompare. rewrite Z.compare_refl.
  destruct s; rewrite ?Pos.compare_cont_refl; reflexivity.
Qed.

(** A float that is greater than zero is not a NaN and does not compare
    equal to zero. *)
Lemma positive_float_is_number (v : float) :
  (0 <? v) = true -> is_nan v = false /\ is_zero v = false.
Proof.
  unfold is_nan, is_zero.
  rewrite ltb_spec, !FloatAxioms.eqb_spec.
  change (Prim2SF zero) with (S754_zero false).
  change (Prim2SF 0) with (S754_zero false).
  destruct (Prim2SF v) as [s|s| |s mnt e]; try destruct s;
    unfold SFltb, SFeqb; try (simpl; intros H; discriminate H);
    intros _; rewrite ?SFcompare_refl_finite; split; reflexivity.
Qed.

Lemma positive_float_class (v : float) :
  (0 <? v)
  = match classify v with
    | PNormal | PSubn | PInf => true
    | _ => false
    end.
Proof.
  rewrite ltb_spec, classify_spec.
  change (Prim2SF 0) with (S754_zero false).
  unfold SF64classify, SFclassify, SFltb, SFcompare.
  destruct (Prim2SF v) as [s|s| |s mnt e]; try destruct s; try reflexivity;
    destruct (Z.eqb (Zpos (digits2_pos mnt)) prec); reflexivity.
Qed.

(** X1. Whenever [prt()] returns, the value is the stored [Prt_], it is
    greater than zero, and so it is neither a NaN nor a zero: a caller
    may divide by it. *)
Theorem prt_returns_positive_number (m : DATurbulenceModel) (v : float) :
  prt m = Returned v ->
  v = Prt_ m /\ (0 <? v) = true /\ is_nan v = false /\ is_zero v = false.
Proof.
  intros H. apply prt_Returned in H as [Hv Hpos].
  destruct (positive_float_is_number v Hpos) as [Hnan Hzero]. auto.
Qed.

Lemma prt_returns_positive_number_witness :
  0.5 = Prt_ resolvedModel /\ (0 <? 0.5) = true
  /\ is_nan 0.5 = false /\ is_zero 0.5 = false.
Proof. apply (prt_returns_positive_number resolvedModel 0.5). reflexivity. Defined.

(** X2. [prt()] checks the sign and nothing else: it returns exactly
    when the stored [Prt_] is a positive normal number, a positive
    subnormal number or plus infinity, and ends in the fatal error for a
    NaN, for both zeros and for every negative value.  There is no
    finiteness or upper bound test. *)
Theorem prt_accepts_by_class (m : DATurbulenceModel) :
  isReturned (prt m)
  = match classify (Prt_ m) with
    | PNormal | PSubn | PInf => true
    | _ => false
    end.
Proof.
  rewrite <- positive_float_class, prt_unfold.
  destruct (0 <? Prt_ m); reflexivity.
Qed.

(** Plus infinity and the smallest positive subnormal number are
    returned as they are. *)
Example prt_infinity_and_smallest :
  prt (withPrt freshModel infinity) = Returned infinity
  /\ prt (withPrt freshModel 0x1p-1074) = Returned 0x1p-1074.
Proof. split; reflexivity. Qed.

End PrtValues.

